(** * simple-json-backend-datasource: the query fan-out of pkg/plugin/plugin.go

    A shallow embedding of the Go backend plugin: the request translator
    [createMetricRequest], the upstream client [makeHttpRequest], the response
    decoder [parseQueryResponse], the per-query pipeline [query] and the
    coordinator [QueryData] with its goroutines and WaitGroup.

    Conventions.
    - A Go [(T, error)] result is a [res T]: [Ok v] for [(v, nil)] and
      [Fail e] for [(nil, e)].  An [error] is kept by its message.
    - [[]byte] and [string] are both [string] (a Go string is a byte string).
    - Everything the plugin calls outside its own package (time, simplejson,
      encoding/json, net/http, ctxhttp) is a field of [Libs], so every theorem
      holds for whatever these libraries do; the few functions of simplejson
      whose effect on the payload matters are written out in [simplejson].
      Each of them is a function: in particular the upstream's answer to a
      call depends on the context and the request only.
    - The HTTP calls a function issues are recorded in a log threaded through
      the [Net] monad.
    - A map store of a goroutine is one atomic step of a run. *)

From stdpp Require Import base option strings list gmap fin_maps fin_sets relations.
From Stdlib Require Import Ascii ZArith QArith.

#[local] Set Warnings "-register-all,-clear-no-such-hyp".
#[local] Open Scope Z_scope.

(** ** Go results *)

Definition error := string.
Definition bytes := string.

Inductive res (A : Type) : Type :=
| Ok (a : A)
| Fail (e : error).
Arguments Ok {A} a.
Arguments Fail {A} e.

(** A call either returns or panics (failed type assertion). *)
Inductive outcome (A : Type) : Type :=
| Return (a : A)
| Panic (msg : string).
Arguments Return {A} a.
Arguments Panic {A} msg.

(** ** JSON values, as simplejson holds them ([interface{}] trees) *)

Inductive json : Type :=
| JNull
| JBool (b : bool)
| JNumber (lit : string)
| JString (s : string)
| JArray (l : list json)
| JObject (m : gmap string json).

Definition is_JArray (j : json) : bool :=
  match j with JArray _ => true | _ => false end.

Definition is_JObject (j : json) : bool :=
  match j with JObject _ => true | _ => false end.

(** The functions of bitly/go-simplejson the translator calls.  Go mutates the
    maps in place; the tree returned here is the tree [j.data] holds after the
    call. *)
Module simplejson.

(** [New()]: [&Json{data: make(map[string]interface{})}]. *)
Definition New : json := JObject ∅.

(** [j.Map()]: the top-level map, when [j.data] is one. *)
Definition Map (j : json) : option (gmap string json) :=
  match j with JObject m => Some m | _ => None end.

(** The loop of [SetPath]: walk [branch] below [curr], creating a map at
    every key that is missing or holds something else, and store [val] at
    the last key. *)
Fixpoint setBranch (curr : gmap string json) (branch : list string)
    (val : json) : gmap string json :=
  match branch with
  | [] => curr
  | [k] => <[k := val]> curr
  | b :: (_ :: _) as rest =>
      let n := match curr !! b with
               | Some (JObject n) => n
               | _ => ∅
               end in
      <[b := JObject (setBranch n rest val)]> curr
  end.

(** [j.SetPath(branch, val)]. *)
Definition SetPath (j : json) (branch : list string) (val : json) : json :=
  match branch with
  | [] => val
  | _ => JObject (setBranch (default ∅ (Map j)) branch val)
  end.

(** [j.Set(key, val)]: does nothing when [j.data] is not a map. *)
Definition Set_ (j : json) (key : string) (val : json) : json :=
  match Map j with
  | Some m => JObject (<[key := val]> m)
  | None => j
  end.

(** [j.GetPath(branch...)], used to read a payload back. *)
Fixpoint GetPath (j : json) (branch : list string) : option json :=
  match branch with
  | [] => Some j
  | b :: rest =>
      match j with
      | JObject m => match m !! b with
                     | Some v => GetPath v rest
                     | None => None
                     end
      | _ => None
      end
  end.

End simplejson.

(** ** Host SDK data (grafana-plugin-sdk-go) *)

(** [time.Time]: an instant, here its Unix nanoseconds. *)
Definition Time := Z.

Record TimeRange := mkTimeRange { From : Time; To : Time }.

Record DataQuery := mkDataQuery {
  RefID : string;
  JSON : bytes;
  QTimeRange : TimeRange
}.

Inductive FieldValues :=
| TimeValues (l : list Time)
| Int64Values (l : list Z).

Definition values_len (v : FieldValues) : nat :=
  match v with TimeValues l => length l | Int64Values l => length l end.

Record Field := mkField { FName : string; FValues : FieldValues }.

Record Frame := mkFrame { FrName : string; Fields : list Field }.

(** [data.NewFrame(name)] and [data.NewField(name, nil, values)]. *)
Definition NewFrame (name : string) : Frame := mkFrame name [].
Definition NewField (name : string) (values : FieldValues) : Field :=
  mkField name values.

Record DataResponse := mkDataResponse {
  Frames : list Frame;
  Error : option error
}.

Record DataSourceInstanceSettings := mkSettings {
  SName : string;
  URL : string
}.

Record PluginContext := mkPluginContext {
  OrgID : Z;
  PCSettings : option DataSourceInstanceSettings
}.

Record QueryDataRequest := mkQueryDataRequest {
  ReqPluginContext : PluginContext;
  Queries : list DataQuery
}.

(** [context.Context]: opaque to the plugin, handed to ctxhttp unchanged. *)
Inductive Context := Ctx (id : nat).

(** ** net/http data *)

Record Request := mkRequest {
  Method : string;
  ReqURL : string;
  Header : gmap string (list string);
  ReqBody : bytes
}.

(** [res.Body] by what [ioutil.ReadAll] makes of it. *)
Record Response := mkResponse {
  Status : string;
  StatusCode : Z;
  Body : res bytes
}.

Definition MethodPost : string := "POST".
Definition StatusOK : Z := 200.

(** [h.Add(key, value)] for a key already in canonical form. *)
Definition Header_Add (h : gmap string (list string)) (key value : string)
    : gmap string (list string) :=
  <[key := default [] (h !! key) ++ [value]]> h.

(** ** Declarations of the package that the sources only use *)

(** Modelled from the spec: the declaration of [TargetResponseDTO] is not
    among the sources.  The spec (4.3, 6) describes the body as an array of
    per-query result objects in series or table form; the fields are the ones
    the disabled loop of [parseQueryResponse] reads ([Target], [DataPoints],
    [Columns] with [Text] and [Type], [Rows]). *)
Record TableColumn := mkTableColumn { CText : string; CType : string }.

Record TargetResponseDTO := mkDTO {
  Target : string;
  DataPoints : list (Q * Q);
  Columns : list TableColumn;
  Rows : list (list json)
}.

(** Modelled from the spec: the declaration of [RemoteDatasourceRequest] is
    not among the sources (the spec's UpstreamRequest, 3); its three fields
    are the ones [createMetricRequest] fills in. *)
Record RemoteDatasourceRequest := mkRemote {
  queryType : string;
  req : Request;
  queries : json
}.

(** ** The libraries the plugin calls *)

Record Libs := mkLibs {
  (** [t.String()] *)
  Time_String : Time → string;
  (** [simplejson.NewJson(body)] *)
  simplejson_NewJson : bytes → res json;
  (** [json.Marshal(&j.data)] behind [payload.MarshalJSON()] *)
  json_Marshal : json → res bytes;
  (** the error, if any, [http.NewRequest] reports for a URL *)
  url_Parse_error : string → option error;
  (** [ctxhttp.Do(ctx, httpClient, req)] with the package's [httpClient] *)
  ctxhttp_Do : Context → Request → res Response;
  (** [json.Unmarshal(body, &responseBody)] *)
  json_Unmarshal : bytes → res (list TargetResponseDTO)
}.

(** [http.NewRequest(method, url, strings.NewReader(body))] for a valid
    method. *)
Definition http_NewRequest (L : Libs) (method url : string) (body : bytes)
    : res Request :=
  match url_Parse_error L url with
  | Some e => Fail e
  | None => Ok (mkRequest method url ∅ body)
  end.

(** ** Sequencing *)

(** Early return on a non-nil [err]. *)
#[export] Instance res_bind : MBind res := λ A B k m,
  match m with
  | Ok a => k a
  | Fail e => Fail e
  end.

(** Computations that issue HTTP calls: the log of the requests sent so far
    goes in, the log extended by this computation's calls comes out. *)
Definition Net (A : Type) : Type := list Request → A * list Request.

Definition net_ret {A} (a : A) : Net A := λ log, (a, log).

Definition net_bind {A B} (m : Net A) (k : A → Net B) : Net B :=
  λ log, let '(a, log') := m log in k a log'.

Notation "x ←ₙ m ;; k" := (net_bind m (λ x, k))
  (at level 100, m at next level, right associativity).

(** One call of [ctxhttp.Do]: the request goes on the wire, the upstream's
    answer to it comes back. *)
Definition Do (L : Libs) (ctx : Context) (r : Request) : Net (res Response) :=
  λ log, (ctxhttp_Do L ctx r, log ++ [r]).

(** ** pkg/plugin/plugin.go *)

Record JsonDatasourceInstance := mkJsonDatasourceInstance {
  dsInfo : DataSourceInstanceSettings
}.

Record dataSourceInstance := mkdataSourceInstance {
  settings : DataSourceInstanceSettings
}.

(** [instancemgmt.Instance] is [interface{}]: a value together with its
    dynamic type. *)
Inductive Instance :=
| IJsonDatasourceInstance (i : JsonDatasourceInstance)
| IdataSourceInstance (i : dataSourceInstance)
| IOther.

(** The interface [instancemgmt.InstanceManager], by the one method the
    plugin calls. *)
Record InstanceManager := mkInstanceManager {
  Get : PluginContext → res Instance
}.

Record JsonDatasource := mkJsonDatasource { im : InstanceManager }.

Definition newJsonDatasourceInstance (s : DataSourceInstanceSettings)
    : res Instance :=
  Ok (IJsonDatasourceInstance (mkJsonDatasourceInstance s)).

(** [datasource.NewInstanceManager(factory)] of the SDK: [Get] refuses a
    context without datasource settings and otherwise hands out what the
    factory built for them. *)
Definition NewInstanceManager
    (factory : DataSourceInstanceSettings → res Instance) : InstanceManager :=
  mkInstanceManager (λ ctx,
    match PCSettings ctx with
    | None => Fail "data source instance settings cannot be nil"
    | Some s => factory s
    end).

Definition NewJsonDatasource : JsonDatasource :=
  mkJsonDatasource (NewInstanceManager newJsonDatasourceInstance).

(** The type assertion of the instance to a pointer to [dataSourceInstance]
    panics on any other dynamic type. *)
Definition getInstance (ds : JsonDatasource) (ctx : PluginContext)
    : outcome (res dataSourceInstance) :=
  match Get (im ds) ctx with
  | Fail err => Return (Fail err)
  | Ok (IdataSourceInstance i) => Return (Ok i)
  | Ok _ => Panic "interface conversion: interface {} is not *plugin.dataSourceInstance"
  end.

(** [backend.CheckHealthResult] and the statuses of the SDK. *)
Inductive HealthStatus :=
| HealthStatusUnknown
| HealthStatusOk
| HealthStatusError.

Record CheckHealthResult := mkCheckHealthResult {
  HStatus : HealthStatus;
  HMessage : string
}.

Record CheckHealthRequest := mkCheckHealthRequest {
  HPluginContext : PluginContext
}.

(** [CheckHealth] asks the instance manager itself, not [getInstance]: the
    instance it gets is dropped without a type assertion.  The pair is the
    Go result [(res, err)]. *)
Definition CheckHealth (ds : JsonDatasource) (rq : CheckHealthRequest)
    : CheckHealthResult * option error :=
  let res := mkCheckHealthResult HealthStatusUnknown EmptyString in
  match Get (im ds) (HPluginContext rq) with
  | Fail err =>
      let res := mkCheckHealthResult HealthStatusError (HMessage res) in
      let res := mkCheckHealthResult (HStatus res)
                   "Error getting datasource instance" in
      (res, None)
  | Ok _ =>
      let res := mkCheckHealthResult HealthStatusOk (HMessage res) in
      let res := mkCheckHealthResult (HStatus res) "plugin is running" in
      (res, None)
  end.

(** Lines 167-170 of [createMetricRequest]: the payload handed to
    [MarshalJSON]. *)
Definition createMetricPayload (L : Libs) (q : DataQuery) (jsonQueries : json)
    : json :=
  let payload := simplejson.New in
  let payload := simplejson.SetPath payload ["range"; "to"]
                   (JString (Time_String L (From (QTimeRange q)))) in
  let payload := simplejson.SetPath payload ["range"; "from"]
                   (JString (Time_String L (To (QTimeRange q)))) in
  simplejson.Set_ payload "targets" jsonQueries.

Definition createMetricRequest (L : Libs) (q : DataQuery)
    (instance : dataSourceInstance) : res RemoteDatasourceRequest :=
  jsonQueries ← simplejson_NewJson L (JSON q);
  let payload := createMetricPayload L q jsonQueries in
  body ← json_Marshal L payload;
  let url := URL (settings instance) +:+ "/query" in
  r ← http_NewRequest L MethodPost url body;
  let r := mkRequest (Method r) (ReqURL r)
             (Header_Add (Header r) "Content-Type" "application/json")
             (ReqBody r) in
  Ok (mkRemote "query" r jsonQueries).

Definition makeHttpRequest (L : Libs) (ctx : Context)
    (remoteDsReq : RemoteDatasourceRequest) : Net (res bytes) :=
  r ←ₙ Do L ctx (req remoteDsReq);;
  match r with
  | Fail err => net_ret (Fail err)
  | Ok rsp =>
      if decide (StatusCode rsp ≠ StatusOK) then
        let msg := "invalid status code. status: " +:+ Status rsp in
        net_ret (Fail msg)
      else
        match Body rsp with
        | Fail err => net_ret (Fail err)
        | Ok body => net_ret (Ok body)
        end
  end.

Definition parseQueryResponse (L : Libs) (query : DataQuery) (body : bytes)
    : DataResponse :=
  match json_Unmarshal L body with
  | Fail err => mkDataResponse [] (Some err)
  | Ok responseBody =>
      let frame := NewFrame "response" in
      let frame := mkFrame (FrName frame)
        (Fields frame ++
           [NewField "time"
              (TimeValues [From (QTimeRange query); To (QTimeRange query)]);
            NewField "values" (Int64Values [10; 20])]) in
      mkDataResponse ([] ++ [frame]) None
  end.

(** The per-query pipeline.  In the last branch the source returns
    [backend.DataResponse{Error: err}], and [err] is the variable assigned by
    [makeHttpRequest], nil at that point. *)
Definition query (L : Libs) (ctx : Context) (q : DataQuery)
    (instance : dataSourceInstance) : Net DataResponse :=
  match createMetricRequest L q instance with
  | Fail err => net_ret (mkDataResponse [] (Some err))
  | Ok remoteDsReq =>
      r ←ₙ makeHttpRequest L ctx remoteDsReq;;
      match r with
      | Fail err => net_ret (mkDataResponse [] (Some err))
      | Ok body =>
          let err : option error := None in
          let res := parseQueryResponse L q body in
          if decide (Error res ≠ None) then
            net_ret (mkDataResponse [] err)
          else
            net_ret res
      end
  end.

(** What [query] returns; its HTTP log aside. *)
Definition queryResult (L : Libs) (ctx : Context) (q : DataQuery)
    (instance : dataSourceInstance) : DataResponse :=
  (query L ctx q instance []).1.

(** ** QueryData: the goroutines and the WaitGroup

    [QueryData] resolves the instance, sets the WaitGroup counter to the
    number of queries, starts one goroutine per query and waits for the
    counter to reach zero.  Its runs are the interleavings of the steps below:
    a step of the main function, or of one goroutine of the pool.  A map store
    is one step. *)

(** Where a goroutine is in its body. *)
Inductive gpc :=
| AtQuery                        (* before [res := ds.query(ctx, q, instance)] *)
| AtStore (res : DataResponse)   (* before [responses.Responses[q.RefID] = res] *)
| AtDone (res : DataResponse)    (* before [wg.Done()] *)
| Exited (res : DataResponse).

Record goroutine := mkG { gq : DataQuery; gat : gpc }.

(** Where the main function is after [wg.Add]: in the loop with the queries
    still to range over ([AtLoop []] is [wg.Wait()]), returned, or stopped by
    the panic of a WaitGroup counter going negative. *)
Inductive mpc :=
| AtLoop (rest : list DataQuery)
| AtReturn
| AtPanic.

Record qstate := mkQ {
  main : mpc;
  pool : list goroutine;
  responses : gmap string DataResponse;
  wg : nat;
  wire : list Request
}.

Definition gres (g : goroutine) : option DataResponse :=
  match gat g with
  | AtQuery => None
  | AtStore r | AtDone r | Exited r => Some r
  end.

Definition stored (g : goroutine) : bool :=
  match gat g with
  | AtDone _ | Exited _ => true
  | _ => false
  end.

Definition live (g : goroutine) : bool :=
  match gat g with
  | Exited _ => false
  | _ => true
  end.

Definition unspawned (s : qstate) : list DataQuery :=
  match main s with
  | AtLoop rest => rest
  | _ => []
  end.

Section coordinator.
Context (L : Libs) (ctx : Context) (instance : dataSourceInstance).

(** The state after [wg.Add(len(req.Queries))]. *)
Definition spawn_state (qs : list DataQuery) (w : list Request) : qstate :=
  mkQ (AtLoop qs) [] ∅ (length qs) w.

Inductive step : qstate → qstate → Prop :=
| step_go q rest gs m n w :
    step (mkQ (AtLoop (q :: rest)) gs m n w)
         (mkQ (AtLoop rest) (gs ++ [mkG q AtQuery]) m n w)
| step_query pc g1 q g2 m n w r w' :
    query L ctx q instance w = (r, w') →
    step (mkQ pc (g1 ++ mkG q AtQuery :: g2) m n w)
         (mkQ pc (g1 ++ mkG q (AtStore r) :: g2) m n w')
| step_store pc g1 q r g2 m n w :
    step (mkQ pc (g1 ++ mkG q (AtStore r) :: g2) m n w)
         (mkQ pc (g1 ++ mkG q (AtDone r) :: g2) (<[RefID q := r]> m) n w)
| step_done pc g1 q r g2 m n w :
    step (mkQ pc (g1 ++ mkG q (AtDone r) :: g2) m (S n) w)
         (mkQ pc (g1 ++ mkG q (Exited r) :: g2) m n w)
| step_done_negative pc g1 q r g2 m w :
    step (mkQ pc (g1 ++ mkG q (AtDone r) :: g2) m 0 w)
         (mkQ AtPanic (g1 ++ mkG q (AtDone r) :: g2) m 0 w)
| step_wait gs m w :
    step (mkQ (AtLoop []) gs m 0 w)
         (mkQ AtReturn gs m 0 w).

(** One goroutine run from start to exit. *)
Definition run_goroutine (acc : gmap string DataResponse * list Request)
    (q : DataQuery) : gmap string DataResponse * list Request :=
  let '(r, w') := query L ctx q instance acc.2 in
  (<[RefID q := r]> acc.1, w').

End coordinator.

(** What a call of [QueryData] can do: return [(nil, err)], return
    [(responses, nil)] at the end of some run, or panic. *)
Inductive QueryData (L : Libs) (ds : JsonDatasource) (ctx : Context)
    (rq : QueryDataRequest) (w : list Request)
    : outcome (res (gmap string DataResponse)) → list Request → Prop :=
| QueryData_no_instance err :
    getInstance ds (ReqPluginContext rq) = Return (Fail err) →
    QueryData L ds ctx rq w (Return (Fail err)) w
| QueryData_bad_instance msg :
    getInstance ds (ReqPluginContext rq) = Panic msg →
    QueryData L ds ctx rq w (Panic msg) w
| QueryData_returns instance s :
    getInstance ds (ReqPluginContext rq) = Return (Ok instance) →
    rtc (step L ctx instance) (spawn_state (Queries rq) w) s →
    main s = AtReturn →
    QueryData L ds ctx rq w (Return (Ok (responses s))) (wire s).

(** The run in which every goroutine finishes before the next one starts. *)
Definition QueryData_in_order (L : Libs) (ds : JsonDatasource) (ctx : Context)
    (rq : QueryDataRequest)
    : Net (outcome (res (gmap string DataResponse))) :=
  λ w,
    match getInstance ds (ReqPluginContext rq) with
    | Panic msg => (Panic msg, w)
    | Return (Fail err) => (Return (Fail err), w)
    | Return (Ok instance) =>
        let '(m, w') := foldl (run_goroutine L ctx instance) (∅, w) (Queries rq) in
        (Return (Ok m), w')
    end.

(** ** What the spec asks of a decoded body *)

(** The number of cells the rows of a table give to column [i]. *)
Definition column_length (d : TargetResponseDTO) (i : nat) : nat :=
  length (filter (λ row : list json, i < length row)%nat (Rows d)).

Definition is_time_column (d : TargetResponseDTO) (i : nat) : bool :=
  match Columns d !! i with
  | Some c => bool_decide (CType c = "time")
  | None => false
  end.

(** Some time column of the table has another length than some column of the
    same table. *)
Definition mismatched_table (d : TargetResponseDTO) : bool :=
  let cols := seq 0 (length (Columns d)) in
  existsb (λ i,
    is_time_column d i &&
    existsb (λ j, negb (Nat.eqb (column_length d i) (column_length d j))) cols)
    cols.

Definition mismatched_lengths (ds : list TargetResponseDTO) : bool :=
  existsb mismatched_table ds.

(** The columns of a decoded frame all have the length of the first one (the
    time column). *)
Definition equal_length_columns (f : Frame) : bool :=
  match Fields f with
  | [] => true
  | t :: cs =>
      forallb (λ c, Nat.eqb (values_len (FValues c)) (values_len (FValues t))) cs
  end.

(** ** A stub upstream

    Concrete libraries for running the plugin on sample inputs: two instants
    with their [String()] texts, the JSON documents of the README's Query API
    with their parsed forms, and an upstream that answers by target. *)
Module Stub.

Definition dq : string := String "034"%char EmptyString.
Definition quoted (s : string) : string := dq +:+ s +:+ dq.

Definition T0 : Time := 1477895624000000000.
Definition T1 : Time := 1477917224000000000.

Definition Time_String (t : Time) : string :=
  if decide (t = T0) then "2016-10-31 06:33:44 +0000 UTC"
  else if decide (t = T1) then "2016-10-31 12:33:44 +0000 UTC"
  else "0001-01-01 00:00:00 +0000 UTC".

(** The query model [{"target":t}] and its parsed form. *)
Definition model (t : string) : bytes :=
  "{" +:+ quoted "target" +:+ ":" +:+ quoted t +:+ "}".
Definition model_json (t : string) : json :=
  JObject {[ "target" := JString t ]}.

Definition targets : list string :=
  ["upper_50"; "upper_75"; "table"; "ragged"; "garbled"; "down"].

Definition NewJson (body : bytes) : res json :=
  match list_find (λ t, body = model t) targets with
  | Some (_, t) => Ok (model_json t)
  | None => Fail "invalid character looking for beginning of value"
  end.

(** [json.Marshal] on the payloads of the translator. *)
Definition Marshal (payload : json) : res bytes :=
  match simplejson.GetPath payload ["range"; "from"],
        simplejson.GetPath payload ["range"; "to"],
        simplejson.GetPath payload ["targets"; "target"] with
  | Some (JString f), Some (JString t), Some (JString tg) =>
      Ok ("{" +:+ quoted "range" +:+ ":{" +:+ quoted "from" +:+ ":" +:+
          quoted f +:+ "," +:+ quoted "to" +:+ ":" +:+ quoted t +:+ "}," +:+
          quoted "targets" +:+ ":" +:+ model tg +:+ "}")
  | _, _, _ => Fail "json: unsupported value"
  end.

(** The body the translator sends for target [t] over [T0, T1]. *)
Definition sent (t : string) : bytes :=
  "{" +:+ quoted "range" +:+ ":{" +:+ quoted "from" +:+ ":" +:+
  quoted (Time_String T1) +:+ "," +:+ quoted "to" +:+ ":" +:+
  quoted (Time_String T0) +:+ "}," +:+
  quoted "targets" +:+ ":" +:+ model t +:+ "}".

Definition series_body : bytes :=
  "[{" +:+ quoted "target" +:+ ":" +:+ quoted "upper_50" +:+ "," +:+
  quoted "datapoints" +:+ ":[[622,1450754160000],[365,1450754220000]]}]".
Definition series_dto : list TargetResponseDTO :=
  [mkDTO "upper_50" [(622 # 1, 1450754160000 # 1); (365 # 1, 1450754220000 # 1)]%Q
     [] []].

Definition columns_text : string :=
  quoted "columns" +:+ ":[{" +:+ quoted "text" +:+ ":" +:+ quoted "Time" +:+
  "," +:+ quoted "type" +:+ ":" +:+ quoted "time" +:+ "},{" +:+
  quoted "text" +:+ ":" +:+ quoted "Number" +:+ "," +:+
  quoted "type" +:+ ":" +:+ quoted "number" +:+ "}]".
Definition columns_dto : list TableColumn :=
  [mkTableColumn "Time" "time"; mkTableColumn "Number" "number"].

(** A table with two full rows. *)
Definition table_body : bytes :=
  "[{" +:+ columns_text +:+ "," +:+ quoted "rows" +:+
  ":[[1234567,123],[1234568,231]]}]".
Definition table_dto : list TargetResponseDTO :=
  [mkDTO EmptyString [] columns_dto
     [[JNumber "1234567"; JNumber "123"]; [JNumber "1234568"; JNumber "231"]]].

(** A table whose second row lacks the Number cell: the Time column has two
    values, the Number column one. *)
Definition ragged_body : bytes :=
  "[{" +:+ columns_text +:+ "," +:+ quoted "rows" +:+
  ":[[1234567,123],[1234568]]}]".
Definition ragged_dto : list TargetResponseDTO :=
  [mkDTO EmptyString [] columns_dto
     [[JNumber "1234567"; JNumber "123"]; [JNumber "1234568"]]].

Definition garbled_body : bytes := "<html>Bad Gateway</html>".

Definition Unmarshal (body : bytes) : res (list TargetResponseDTO) :=
  if decide (body = series_body) then Ok series_dto
  else if decide (body = table_body) then Ok table_dto
  else if decide (body = ragged_body) then Ok ragged_dto
  else Fail "invalid character '<' looking for beginning of value".

Definition answers : list (string * res Response) :=
  [("upper_50", Ok (mkResponse "200 OK" 200 (Ok series_body)));
   ("upper_75", Ok (mkResponse "200 OK" 200 (Ok series_body)));
   ("table", Ok (mkResponse "200 OK" 200 (Ok table_body)));
   ("ragged", Ok (mkResponse "200 OK" 200 (Ok ragged_body)));
   ("garbled", Ok (mkResponse "200 OK" 200 (Ok garbled_body)));
   ("down", Ok (mkResponse "500 Internal Server Error" 500 (Ok EmptyString)))].

Definition Do_ (ctx : Context) (r : Request) : res Response :=
  match list_find (λ a, ReqBody r = sent a.1) answers with
  | Some (_, a) => a.2
  | None => Fail "dial tcp: connection refused"
  end.

Definition libs : Libs :=
  mkLibs Time_String NewJson Marshal (λ _, None) Do_ Unmarshal.

Definition ctx : Context := Ctx 0.

Definition ds_settings : DataSourceInstanceSettings :=
  mkSettings "simple-json" "http://localhost:3333".
Definition instance : dataSourceInstance := mkdataSourceInstance ds_settings.

Definition plugin_context : PluginContext :=
  mkPluginContext 1 (Some ds_settings).

(** A datasource whose instance manager hands out [dataSourceInstance]s. *)
Definition ds : JsonDatasource :=
  mkJsonDatasource (NewInstanceManager
    (λ s, Ok (IdataSourceInstance (mkdataSourceInstance s)))).

Definition q (refId target : string) : DataQuery :=
  mkDataQuery refId (model target) (mkTimeRange T0 T1).

(** The request of the translator for target [t]. *)
Definition request (t : string) : Request :=
  mkRequest "POST" "http://localhost:3333/query"
    {[ "Content-Type" := ["application/json"] ]} (sent t).

(** The decoder's only success value over [T0, T1]. *)
Definition two_points : DataResponse :=
  mkDataResponse
    [mkFrame "response"
       [mkField "time" (TimeValues [T0; T1]);
        mkField "values" (Int64Values [10; 20])]]
    None.

End Stub.

(** The decoder the spec describes would refuse every body that unmarshals
    into results with mismatched column lengths. *)
Definition rejects_mismatched_lengths : Prop :=
  ∀ (L : Libs) (q : DataQuery) (body : bytes) (dtos : list TargetResponseDTO),
    json_Unmarshal L body = Ok dtos →
    mismatched_lengths dtos = true →
    Error (parseQueryResponse L q body) ≠ None.

(** A sample batch: one query that succeeds, one whose upstream answers 500,
    one whose upstream answers with a body that is not JSON. *)
Definition sample_batch : QueryDataRequest :=
  mkQueryDataRequest Stub.plugin_context
    [Stub.q "A" "upper_50"; Stub.q "B" "down"; Stub.q "C" "garbled"].

Definition sample_responses : gmap string DataResponse :=
  {[ "A" := Stub.two_points;
     "B" := mkDataResponse []
              (Some "invalid status code. status: 500 Internal Server Error");
     "C" := mkDataResponse [] None ]}.

Definition sample_wire : list Request :=
  [Stub.request "upper_50"; Stub.request "down"; Stub.request "garbled"].

(** A state of the coordinator on the queries A (succeeds) and B (upstream
    answers 500) in which both goroutines have exited and the main function
    has returned. *)
Definition status_500 : DataResponse :=
  mkDataResponse []
    (Some "invalid status code. status: 500 Internal Server Error").


(** ** The requests of a batch *)

(** The request the pipeline of [q] puts on the wire: the translated one,
    or none when the translation fails. *)
Definition requests_of (L : Libs) (instance : dataSourceInstance)
    (q : DataQuery) : list Request :=
  match createMetricRequest L q instance with
  | Ok r => [req r]
  | Fail _ => []
  end.

(** What a goroutine has sent so far. *)
Definition sent_by (L : Libs) (instance : dataSourceInstance)
    (g : goroutine) : list Request :=
  match gat g with
  | AtQuery => []
  | _ => requests_of L instance (gq g)
  end.

(** The two-point frame of the decoder for a query. *)
Definition placeholder (q : DataQuery) : DataResponse :=
  mkDataResponse
    [mkFrame "response"
       [mkField "time" (TimeValues [From (QTimeRange q); To (QTimeRange q)]);
        mkField "values" (Int64Values [10; 20])]]
    None.

(** A batch in which two queries carry the RefID A. *)
Definition twice_A : QueryDataRequest :=
  mkQueryDataRequest Stub.plugin_context
    [Stub.q "A" "upper_50"; Stub.q "A" "down"].

(** ** Invariant of the runs of [QueryData] *)

(** The goroutines of a pool that have not called [wg.Done()] yet. *)
Definition alive (gs : list goroutine) : nat :=
  sum_list_with (λ g, if live g then 1 else 0)%nat gs.

Record inv (L : Libs) (ctx : Context) (instance : dataSourceInstance)
    (qs : list DataQuery) (s : qstate) : Prop := mkInv {
  (** the counter never goes negative *)
  inv_main : main s ≠ AtPanic;
  (** the goroutines started so far are those of a prefix of the batch *)
  inv_queries : (gq <$> pool s) ++ unspawned s = qs;
  (** the counter is the number of units that have not signalled *)
  inv_wg : wg s = (length (unspawned s) + alive (pool s))%nat;
  (** the main function returns on a zero counter only *)
  inv_return : main s = AtReturn → wg s = 0%nat;
  (** a goroutine holds the result of the pipeline on its own query *)
  inv_results : ∀ g r, g ∈ pool s → gres g = Some r →
                  r = queryResult L ctx (gq g) instance;
  (** a goroutine that has stored left an entry under its RefID *)
  inv_stored : ∀ g, g ∈ pool s → stored g = true →
                 is_Some (responses s !! RefID (gq g));
  (** every entry was stored by a goroutine with that RefID *)
  inv_keys : ∀ k r, responses s !! k = Some r →
               ∃ g, g ∈ pool s ∧ stored g = true ∧ RefID (gq g) = k ∧
                    gres g = Some r
}.

(** * Properties *)

Example stub_query_series :
  query Stub.libs Stub.ctx (Stub.q "A" "upper_50") Stub.instance []
  = (Stub.two_points, [Stub.request "upper_50"]).
Proof. vm_compute. reflexivity. Qed.

Example stub_query_down :
  query Stub.libs Stub.ctx (Stub.q "B" "down") Stub.instance []
  = (mkDataResponse [] (Some "invalid status code. status: 500 Internal Server Error"),
     [Stub.request "down"]).
Proof. vm_compute. reflexivity. Qed.

(** ** The translator *)

Lemma createMetricPayload_eq (L : Libs) (q : DataQuery) (j : json) :
  createMetricPayload L q j =
  JObject (<["targets" := j]>
    (<["range" := JObject
        (<["from" := JString (Time_String L (To (QTimeRange q)))]>
           (<["to" := JString (Time_String L (From (QTimeRange q)))]> ∅))]>
       (<["range" := JObject
           (<["to" := JString (Time_String L (From (QTimeRange q)))]> ∅)]> ∅))).
Proof.
  unfold createMetricPayload, simplejson.New, simplejson.SetPath. simpl.
  rewrite lookup_empty. simpl. rewrite lookup_insert_eq. reflexivity.
Qed.

(** The payload holds the time range with its bounds exchanged: [range.from]
    is the text of the end, [range.to] the text of the start; [targets] is the
    parsed query model itself. *)
Lemma createMetricPayload_fields (L : Libs) (q : DataQuery) (j : json) :
  simplejson.GetPath (createMetricPayload L q j) ["range"; "from"]
    = Some (JString (Time_String L (To (QTimeRange q)))) ∧
  simplejson.GetPath (createMetricPayload L q j) ["range"; "to"]
    = Some (JString (Time_String L (From (QTimeRange q)))) ∧
  simplejson.GetPath (createMetricPayload L q j) ["targets"] = Some j.
Proof.
  rewrite createMetricPayload_eq. simpl.
  rewrite lookup_insert_ne by done. rewrite !lookup_insert_eq.
  rewrite lookup_insert_ne by done. rewrite lookup_insert_eq.
  done.
Qed.

(** What a request that was built is made of. *)
Lemma createMetricRequest_Ok (L : Libs) (q : DataQuery)
    (instance : dataSourceInstance) (r : RemoteDatasourceRequest) :
  createMetricRequest L q instance = Ok r →
  ∃ j body,
    simplejson_NewJson L (JSON q) = Ok j ∧
    json_Marshal L (createMetricPayload L q j) = Ok body ∧
    r = mkRemote "query"
          (mkRequest MethodPost (URL (settings instance) +:+ "/query")
             {[ "Content-Type" := ["application/json"] ]} body)
          j.
Proof.
  unfold createMetricRequest, mbind, res_bind, http_NewRequest.
  destruct (simplejson_NewJson L (JSON q)) as [j|]; [|done].
  destruct (json_Marshal L _) as [body|] eqn:Hbody; [|done].
  destruct (url_Parse_error L _); [done|].
  intros [= <-]. exists j, body. split_and!; [done..|].
  unfold Header_Add. simpl. by rewrite lookup_empty.
Qed.

(** ** The client *)

Lemma makeHttpRequest_log (L : Libs) (ctx : Context)
    (r : RemoteDatasourceRequest) (log : list Request) :
  (makeHttpRequest L ctx r log).2 = log ++ [req r].
Proof.
  unfold makeHttpRequest, net_bind, Do, net_ret.
  destruct (ctxhttp_Do L ctx (req r)) as [rsp|]; [|done].
  case_decide; [done|]. by destruct (Body rsp).
Qed.

Lemma makeHttpRequest_result (L : Libs) (ctx : Context)
    (r : RemoteDatasourceRequest) (log : list Request) :
  (makeHttpRequest L ctx r log).1 = (makeHttpRequest L ctx r []).1.
Proof.
  unfold makeHttpRequest, net_bind, Do, net_ret.
  destruct (ctxhttp_Do L ctx (req r)) as [rsp|]; [|done].
  case_decide; [done|]. by destruct (Body rsp).
Qed.

(** ** The pipeline *)

Lemma query_result (L : Libs) (ctx : Context) (q : DataQuery)
    (instance : dataSourceInstance) (w : list Request) :
  (query L ctx q instance w).1 = queryResult L ctx q instance.
Proof.
  unfold queryResult, query, net_bind, net_ret.
  destruct (createMetricRequest L q instance) as [r|]; [|done].
  pose proof (makeHttpRequest_result L ctx r w) as H.
  destruct (makeHttpRequest L ctx r w) as [a1 w1].
  destruct (makeHttpRequest L ctx r []) as [a2 w2].
  simpl in H. subst a2. destruct a1; [|done]. by case_decide.
Qed.

(** ** The coordinator *)

Lemma alive_middle (g1 g2 : list goroutine) (g : goroutine) :
  alive (g1 ++ g :: g2) = (alive g1 + (if live g then 1 else 0) + alive g2)%nat.
Proof. unfold alive. rewrite sum_list_with_app. simpl. lia. Qed.

Lemma alive_zero (gs : list goroutine) :
  alive gs = 0%nat → Forall (λ g, ∃ r, gat g = Exited r) gs.
Proof.
  induction gs as [|g gs IH]; [constructor|].
  unfold alive. simpl. fold (alive gs). intros H.
  destruct g as [q []]; simpl in *; try lia.
  constructor; [by eexists | apply IH; lia].
Qed.


Section runs.
Context (L : Libs) (ctx : Context) (instance : dataSourceInstance).
Context (qs : list DataQuery).

#[local] Abbreviation step := (step L ctx instance).
#[local] Abbreviation inv := (inv L ctx instance qs).

Lemma inv_spawn_state (w : list Request) : inv (spawn_state qs w).
Proof.
  split; simpl; try done.
  - intros g r Hg. by apply elem_of_nil in Hg.
  - intros g Hg. by apply elem_of_nil in Hg.
Qed.

Lemma inv_step (s s' : qstate) : inv s → step s s' → inv s'.
Proof.
  intros [Hm Hq Hw Hret Hr Hs Hk] Hstep.
  destruct Hstep; unfold unspawned in *; simpl in *.
  - (* go *)
    split; unfold unspawned; simpl; [done| | |done| | |].
    + by rewrite fmap_app, <- app_assoc.
    + rewrite alive_middle. change (alive []) with 0%nat. simpl. lia.
    + intros g r [Hg|Hg]%elem_of_app; [by apply Hr|].
      apply list_elem_of_singleton in Hg as ->. done.
    + intros g [Hg|Hg]%elem_of_app; [by apply Hs|].
      apply list_elem_of_singleton in Hg as ->. done.
    + intros k r (g & Hg & ?)%Hk. exists g. split; [|done].
      apply elem_of_app. by left.
  - (* query *)
    split; unfold unspawned; simpl; [done| | |done| | |].
    + rewrite fmap_app in *. done.
    + rewrite alive_middle in *. done.
    + intros g r0 Hg Hg0. rewrite elem_of_app, elem_of_cons in Hg.
      destruct Hg as [Hg|[->|Hg]].
      * apply Hr; [|done]. set_solver.
      * simpl in *. injection Hg0 as <-.
        rewrite <- (query_result L ctx q instance w). by rewrite H.
      * apply Hr; [|done]. set_solver.
    + intros g Hg Hst. rewrite elem_of_app, elem_of_cons in Hg.
      destruct Hg as [Hg|[->|Hg]]; [|done|]; apply Hs; set_solver.
    + intros k r0 (g & Hg & Hst & Hid & Hres)%Hk.
      rewrite elem_of_app, elem_of_cons in Hg.
      destruct Hg as [Hg|[Heq|Hg]]; [|by subst g|];
        (exists g; split_and!; [set_solver|assumption..]).
  - (* store *)
    split; unfold unspawned; simpl; [done| | |done| | |].
    + rewrite fmap_app in *. done.
    + rewrite alive_middle in *. done.
    + intros g r0 Hg Hg0. rewrite elem_of_app, elem_of_cons in Hg.
      destruct Hg as [Hg|[->|Hg]].
      * apply Hr; [|done]. set_solver.
      * simpl in *. injection Hg0 as <-.
        apply (Hr (mkG q (AtStore r))); [set_solver|done].
      * apply Hr; [|done]. set_solver.
    + intros g Hg Hst. apply lookup_insert_is_Some'.
      rewrite elem_of_app, elem_of_cons in Hg.
      destruct Hg as [Hg|[->|Hg]]; [right|by left|right]; apply Hs;
        set_solver.
    + intros k r0 [[<- <-]|[Hne Hk0]]%lookup_insert_Some.
      * exists (mkG q (AtDone r)). split; [set_solver|done].
      * apply Hk in Hk0 as (g & Hg & Hst & Hid & Hres).
        rewrite elem_of_app, elem_of_cons in Hg.
        destruct Hg as [Hg|[Heq|Hg]]; [|by subst g|];
          (exists g; split_and!; [set_solver|assumption..]).
  - (* done *)
    split; unfold unspawned; simpl; [done| | | | | |].
    + rewrite fmap_app in *. done.
    + rewrite alive_middle in *. simpl in *. lia.
    + intros Hpc. by apply Hret in Hpc.
    + intros g r0 Hg Hg0. rewrite elem_of_app, elem_of_cons in Hg.
      destruct Hg as [Hg|[->|Hg]].
      * apply Hr; [|done]. set_solver.
      * apply (Hr (mkG q (AtDone r))); [set_solver|done].
      * apply Hr; [|done]. set_solver.
    + intros g Hg Hst. rewrite elem_of_app, elem_of_cons in Hg.
      destruct Hg as [Hg|[->|Hg]].
      * apply Hs; [|done]. set_solver.
      * apply (Hs (mkG q (AtDone r))); [set_solver|done].
      * apply Hs; [|done]. set_solver.
    + intros k r0 (g & Hg & Hst & Hid & Hres)%Hk.
      rewrite elem_of_app, elem_of_cons in Hg.
      destruct Hg as [Hg|[->|Hg]].
      * exists g. split; [set_solver|done].
      * exists (mkG q (Exited r)). split; [set_solver|done].
      * exists g. split; [set_solver|done].
  - (* done on a zero counter *)
    rewrite alive_middle in Hw. simpl in Hw. lia.
  - (* wait *)
    split; unfold unspawned; simpl; done.
Qed.

Lemma inv_reachable (w : list Request) (s : qstate) :
  rtc step (spawn_state qs w) s → inv s.
Proof.
  intros Hrun.
  apply (rtc_ind_r (R := step) (λ s, inv s) (spawn_state qs w));
    [| |exact Hrun].
  - apply inv_spawn_state.
  - intros y z _ Hyz IH. by apply (inv_step y z).
Qed.





(** The run of [QueryData_in_order]. *)
Lemma in_order_run (rest : list DataQuery) (gs : list goroutine)
    (m : gmap string DataResponse) (w : list Request) :
  ∃ gs',
    rtc step (mkQ (AtLoop rest) gs m (length rest) w)
             (mkQ (AtLoop []) gs'
                (foldl (run_goroutine L ctx instance) (m, w) rest).1 0
                (foldl (run_goroutine L ctx instance) (m, w) rest).2).
Proof.
  revert gs m w. induction rest as [|q rest IH]; intros gs m w; simpl.
  - exists gs. apply rtc_refl.
  - unfold run_goroutine at 2 4. simpl.
    destruct (query L ctx q instance w) as [r w1] eqn:Hquery.
    destruct (IH (gs ++ [mkG q (Exited r)]) (<[RefID q := r]> m) w1)
      as [gs' Hrun].
    exists gs'.
    eapply rtc_l; [apply step_go|].
    eapply rtc_l; [by apply step_query|].
    eapply rtc_l; [apply step_store|].
    eapply rtc_l; [apply step_done|].
    exact Hrun.
Qed.

(** At the return every unit of the batch has exited with the result of
    the pipeline on its own query. *)
Lemma returned_all_exited (s : qstate) :
  inv s → main s = AtReturn →
  gq <$> pool s = qs ∧
  Forall (λ g, gat g = Exited (queryResult L ctx (gq g) instance)) (pool s).
Proof.
  intros [_ Hq Hw Hret Hr _ _] Hmain. specialize (Hret Hmain).
  unfold unspawned in *. rewrite Hmain in *. simpl in *.
  rewrite app_nil_r in Hq. split; [done|].
  assert (alive (pool s) = 0%nat) as Hz%alive_zero by lia.
  apply Forall_forall. intros g Hg.
  rewrite Forall_forall in Hz. destruct (Hz g Hg) as [r Hgr].
  rewrite Hgr. f_equal. apply Hr; [done|]. unfold gres. by rewrite Hgr.
Qed.

Lemma returned_dom (s : qstate) :
  inv s → main s = AtReturn →
  dom (responses s) = list_to_set (RefID <$> qs).
Proof.
  intros Hinv Hmain.
  destruct (returned_all_exited s Hinv Hmain) as [Hqs Hex].
  destruct Hinv as [_ _ _ _ _ Hs Hk].
  apply set_eq. intros k.
  rewrite elem_of_dom, elem_of_list_to_set, <- Hqs, <- list_fmap_compose.
  rewrite list_elem_of_fmap. split.
  - intros [r (g & Hg & _ & Hid & _)%Hk]. by exists g.
  - intros (g & -> & Hg). apply Hs; [done|].
    rewrite Forall_forall in Hex. unfold stored. by rewrite (Hex g Hg).
Qed.


End runs.

(** *** Calls of [QueryData] *)

(** The in-order run is one of the runs of [QueryData]. *)
Lemma QueryData_in_order_sound (L : Libs) (ds : JsonDatasource) (ctx : Context)
    (rq : QueryDataRequest) (w : list Request) :
  QueryData L ds ctx rq w (QueryData_in_order L ds ctx rq w).1
                          (QueryData_in_order L ds ctx rq w).2.
Proof.
  unfold QueryData_in_order.
  destruct (getInstance ds (ReqPluginContext rq)) as [[instance|err]|msg] eqn:Hi;
    simpl; [|by constructor..].
  destruct (in_order_run L ctx instance (Queries rq) [] ∅ w) as [gs' Hrun].
  destruct (foldl _ _ _) as [m w'] eqn:Hfold. simpl in *.
  apply (QueryData_returns L ds ctx rq w instance (mkQ AtReturn gs' m 0 w'));
    [done| |done].
  eapply rtc_r; [exact Hrun|apply step_wait].
Qed.

(** A top-level error is the error of the instance lookup and nothing else;
    no request has been sent by then. *)
Lemma QueryData_top_level_error (L : Libs) (ds : JsonDatasource) (ctx : Context)
    (rq : QueryDataRequest) (w w' : list Request) (err : error) :
  QueryData L ds ctx rq w (Return (Fail err)) w' ↔
  getInstance ds (ReqPluginContext rq) = Return (Fail err) ∧ w' = w.
Proof.
  split.
  - inversion 1; subst. done.
  - intros [Hi ->]. by constructor.
Qed.

(** The instances the plugin's own factory builds are not the ones
    [getInstance] asserts: with the datasource of [NewJsonDatasource] the
    lookup never yields an instance. *)
Lemma getInstance_NewJsonDatasource (pc : PluginContext) :
  match getInstance NewJsonDatasource pc with
  | Return (Ok _) => False
  | Return (Fail _) => PCSettings pc = None
  | Panic _ => is_Some (PCSettings pc)
  end.
Proof.
  unfold getInstance. simpl. destruct (PCSettings pc); simpl; [by eexists|done].
Qed.

(** The keys of a returned ResultSet are the RefIDs of the batch, also when
    some RefID occurs twice. *)
Lemma QueryData_keys (L : Libs) (ds : JsonDatasource) (ctx : Context)
    (rq : QueryDataRequest) (w w' : list Request)
    (m : gmap string DataResponse) :
  QueryData L ds ctx rq w (Return (Ok m)) w' →
  dom m = list_to_set (RefID <$> Queries rq).
Proof.
  inversion 1 as [| |instance s Hi Hrun Hmain]; subst.
  apply inv_reachable in Hrun. by apply (returned_dom L ctx instance).
Qed.

(** Two queries with the same RefID share one slot. *)
Example QueryData_in_order_same_RefID :
  QueryData_in_order Stub.libs Stub.ds Stub.ctx
    (mkQueryDataRequest Stub.plugin_context
       [Stub.q "A" "upper_50"; Stub.q "A" "down"]) []
  = (Return (Ok {[ "A" := status_500 ]}),
     [Stub.request "upper_50"; Stub.request "down"]).
Proof. vm_compute. reflexivity. Qed.




(** C8. With no queries and a resolved instance, QueryData returns the empty
    ResultSet and a nil error, it can do nothing else, it starts no goroutine
    and sends no request. *)
Theorem QueryData_empty_batch (L : Libs) (ds : JsonDatasource) (ctx : Context)
    (rq : QueryDataRequest) (w : list Request) (instance : dataSourceInstance) :
  Queries rq = [] →
  getInstance ds (ReqPluginContext rq) = Return (Ok instance) →
  QueryData L ds ctx rq w (Return (Ok ∅)) w ∧
  (∀ out w', QueryData L ds ctx rq w out w' → out = Return (Ok ∅) ∧ w' = w) ∧
  (∀ s, rtc (step L ctx instance) (spawn_state (Queries rq) w) s →
        pool s = [] ∧ wire s = w).
Proof.
  intros Hnil Hi.
  assert (∀ s, rtc (step L ctx instance) (spawn_state [] w) s →
               pool s = [] ∧ responses s = ∅ ∧ wire s = w ∧ wg s = 0%nat ∧
               (main s = AtLoop [] ∨ main s = AtReturn)) as Hruns.
  { intros s Hrun.
    apply (rtc_ind_r (R := step L ctx instance)
             (λ s, pool s = [] ∧ responses s = ∅ ∧ wire s = w ∧ wg s = 0%nat ∧
                   (main s = AtLoop [] ∨ main s = AtReturn))
             (spawn_state [] w)); [by split_and!; try left| |exact Hrun].
    intros y z _ Hstep (Hp & Hm & Hw & Hn & Hmain).
    destruct Hstep; simpl in *;
      try (by destruct g1); try (by destruct Hmain);
      split_and!; auto. }
  rewrite Hnil. split_and!.
  - pose proof (QueryData_in_order_sound L ds ctx rq w) as Hrun.
    unfold QueryData_in_order in Hrun. by rewrite Hi, Hnil in Hrun.
  - intros out w' Hcall.
    inversion Hcall as [| |instance' s Hi' Hrun Hmain]; subst; try congruence.
    assert (instance' = instance) as -> by congruence.
    rewrite Hnil in Hrun. by destruct (Hruns s Hrun) as (_ & -> & -> & _).
  - intros s Hrun. by destruct (Hruns s Hrun) as (-> & _ & -> & _).
Qed.

Example sample_batch_in_order :
  QueryData_in_order Stub.libs Stub.ds Stub.ctx sample_batch []
  = (Return (Ok sample_responses), sample_wire).
Proof. vm_compute. reflexivity. Qed.

Lemma sample_batch_returns :
  QueryData Stub.libs Stub.ds Stub.ctx sample_batch []
    (Return (Ok sample_responses)) sample_wire.
Proof.
  pose proof (QueryData_in_order_sound Stub.libs Stub.ds Stub.ctx sample_batch [])
    as Hrun.
  by rewrite sample_batch_in_order in Hrun.
Qed.




Lemma QueryData_empty_batch_witness :
  QueryData Stub.libs Stub.ds Stub.ctx
    (mkQueryDataRequest Stub.plugin_context []) [] (Return (Ok ∅)) [] ∧
  (∀ out w',
     QueryData Stub.libs Stub.ds Stub.ctx
       (mkQueryDataRequest Stub.plugin_context []) [] out w' →
     out = Return (Ok ∅) ∧ w' = []) ∧
  (∀ s, rtc (step Stub.libs Stub.ctx Stub.instance) (spawn_state [] []) s →
        pool s = [] ∧ wire s = []).
Proof.
  apply (QueryData_empty_batch Stub.libs Stub.ds Stub.ctx
           (mkQueryDataRequest Stub.plugin_context []) [] Stub.instance).
  - reflexivity.
  - vm_compute. reflexivity.
Defined.

(** ** The claims on the translator, the client and the decoder *)

(** C4. On the query A over [T0, T1] the payload of the translator carries
    the text of the range's end under [range.from] and the text of its start
    under [range.to]: the two bounds are exchanged, and the body sent shows
    them so. *)
Theorem createMetricRequest_range_exchanged :
  let q := Stub.q "A" "upper_50" in
  let payload := createMetricPayload Stub.libs q (Stub.model_json "upper_50") in
  Time_String Stub.libs (From (QTimeRange q)) = "2016-10-31 06:33:44 +0000 UTC" ∧
  Time_String Stub.libs (To (QTimeRange q)) = "2016-10-31 12:33:44 +0000 UTC" ∧
  simplejson.GetPath payload ["range"; "from"]
    = Some (JString "2016-10-31 12:33:44 +0000 UTC") ∧
  simplejson.GetPath payload ["range"; "to"]
    = Some (JString "2016-10-31 06:33:44 +0000 UTC") ∧
  ∃ r, createMetricRequest Stub.libs q Stub.instance = Ok r ∧
       json_Marshal Stub.libs payload = Ok (ReqBody (req r)).
Proof.
  split_and!; [vm_compute; reflexivity..|].
  eexists. split; vm_compute; reflexivity.
Qed.

(** C7. On the query A, whose model is the JSON object with the one key
    target, the request is a POST to the base URL followed by /query with
    Content-Type application/json, and the payload holds the parsed model
    itself under targets: an object, not an array. *)
Theorem createMetricRequest_targets_not_array :
  let q := Stub.q "A" "upper_50" in
  let j := Stub.model_json "upper_50" in
  simplejson_NewJson Stub.libs (JSON q) = Ok j ∧
  createMetricRequest Stub.libs q Stub.instance
    = Ok (mkRemote "query"
            (mkRequest "POST" (URL (settings Stub.instance) +:+ "/query")
               {[ "Content-Type" := ["application/json"] ]}
               (Stub.sent "upper_50"))
            j) ∧
  simplejson.GetPath (createMetricPayload Stub.libs q j) ["targets"] = Some j ∧
  is_JObject j = true ∧
  is_JArray j = false.
Proof. split_and!; vm_compute; reflexivity. Qed.

(** C6. A call of the client sends exactly one request, whatever the outcome;
    when the response has a status other than 200 the call fails with the
    error whose message ends in the response's status text. *)
Theorem makeHttpRequest_one_attempt (L : Libs) (ctx : Context)
    (r : RemoteDatasourceRequest) (log : list Request) :
  (makeHttpRequest L ctx r log).2 = log ++ [req r] ∧
  ∀ rsp, ctxhttp_Do L ctx (req r) = Ok rsp →
         StatusCode rsp ≠ StatusOK →
         (makeHttpRequest L ctx r log).1
         = Fail ("invalid status code. status: " +:+ Status rsp).
Proof.
  split; [apply makeHttpRequest_log|].
  intros rsp Hdo Hstatus.
  unfold makeHttpRequest, net_bind, Do, net_ret. rewrite Hdo.
  by rewrite decide_True.
Qed.

Lemma makeHttpRequest_one_attempt_witness :
  let r := mkRemote "query" (Stub.request "down") (Stub.model_json "down") in
  (makeHttpRequest Stub.libs Stub.ctx r []).2 = [Stub.request "down"] ∧
  (makeHttpRequest Stub.libs Stub.ctx r []).1
  = Fail "invalid status code. status: 500 Internal Server Error".
Proof.
  intros r.
  destruct (makeHttpRequest_one_attempt Stub.libs Stub.ctx r []) as [Hlog Herr].
  split; [exact Hlog|].
  apply (Herr (mkResponse "500 Internal Server Error" 500 (Ok EmptyString))).
  - vm_compute. reflexivity.
  - vm_compute. discriminate.
Defined.

(** C10. Two bodies that both unmarshal decode to the same result for
    queries with the same time range: one frame with the time column
    [From, To] and the values column [10, 20], and no error. *)
Theorem parseQueryResponse_ignores_body (L : Libs) (q q' : DataQuery)
    (b b' : bytes) (d d' : list TargetResponseDTO) :
  QTimeRange q = QTimeRange q' →
  json_Unmarshal L b = Ok d →
  json_Unmarshal L b' = Ok d' →
  parseQueryResponse L q b = parseQueryResponse L q' b' ∧
  parseQueryResponse L q b
  = mkDataResponse
      [mkFrame "response"
         [mkField "time" (TimeValues [From (QTimeRange q); To (QTimeRange q)]);
          mkField "values" (Int64Values [10; 20])]]
      None.
Proof.
  intros Hrange Hb Hb'. unfold parseQueryResponse.
  rewrite Hb, Hb', Hrange. done.
Qed.

Lemma parseQueryResponse_ignores_body_witness :
  parseQueryResponse Stub.libs (Stub.q "A" "upper_50") Stub.series_body
  = parseQueryResponse Stub.libs (Stub.q "B" "table") Stub.table_body ∧
  parseQueryResponse Stub.libs (Stub.q "A" "upper_50") Stub.series_body
  = Stub.two_points.
Proof.
  apply (parseQueryResponse_ignores_body Stub.libs
           (Stub.q "A" "upper_50") (Stub.q "B" "table")
           Stub.series_body Stub.table_body Stub.series_dto Stub.table_dto).
  - reflexivity.
  - vm_compute. reflexivity.
  - vm_compute. reflexivity.
Defined.

(** C9. When the translator and the client succeed and the decoder reports
    an error, the pipeline returns a response with no frames and a nil
    [Error]. *)
Theorem query_decode_error_dropped (L : Libs) (ctx : Context) (q : DataQuery)
    (instance : dataSourceInstance) (r : RemoteDatasourceRequest)
    (body : bytes) (w w' : list Request) :
  createMetricRequest L q instance = Ok r →
  makeHttpRequest L ctx r w = (Ok body, w') →
  Error (parseQueryResponse L q body) ≠ None →
  query L ctx q instance w = (mkDataResponse [] None, w').
Proof.
  intros Hreq Hhttp Herr. unfold query, net_bind, net_ret.
  rewrite Hreq, Hhttp. by rewrite decide_True.
Qed.

Lemma query_decode_error_dropped_witness :
  query Stub.libs Stub.ctx (Stub.q "C" "garbled") Stub.instance []
  = (mkDataResponse [] None, [Stub.request "garbled"]).
Proof.
  apply (query_decode_error_dropped Stub.libs Stub.ctx (Stub.q "C" "garbled")
           Stub.instance
           (mkRemote "query" (Stub.request "garbled") (Stub.model_json "garbled"))
           Stub.garbled_body).
  - vm_compute. reflexivity.
  - vm_compute. reflexivity.
  - vm_compute. discriminate.
Defined.

(** C2. The query C, whose upstream answers 200 with a body that is not
    JSON: the decoder reports the error, the pipeline returns a response
    without it, and the slot of C in the ResultSet is no failure entry. *)
Theorem query_garbled_body_no_failure_entry :
  let q := Stub.q "C" "garbled" in
  Error (parseQueryResponse Stub.libs q Stub.garbled_body)
    = Some "invalid character '<' looking for beginning of value" ∧
  query Stub.libs Stub.ctx q Stub.instance []
    = (mkDataResponse [] None, [Stub.request "garbled"]) ∧
  QueryData_in_order Stub.libs Stub.ds Stub.ctx
    (mkQueryDataRequest Stub.plugin_context [q]) []
    = (Return (Ok {[ "C" := mkDataResponse [] None ]}),
       [Stub.request "garbled"]).
Proof. split_and!; vm_compute; reflexivity. Qed.

(** C5 (as stated). A body that unmarshals into a table whose time column
    is longer than its number column is decoded without error. *)
Lemma mismatched_lengths_accepted : ¬ rejects_mismatched_lengths.
Proof.
  intros Hclaim.
  apply (Hclaim Stub.libs (Stub.q "A" "ragged") Stub.ragged_body Stub.ragged_dto);
    vm_compute; reflexivity.
Qed.

(** C5 (amended). The decoder reports an error exactly when the body does not
    unmarshal, whatever the lengths of its column arrays; a result with an
    error has no frames; and every column of every frame it produces has the
    length 2 of the time column. *)
Theorem parseQueryResponse_lengths (L : Libs) (q : DataQuery) (body : bytes) :
  (Error (parseQueryResponse L q body) = None ↔
     ∃ dtos, json_Unmarshal L body = Ok dtos) ∧
  (Error (parseQueryResponse L q body) ≠ None →
     Frames (parseQueryResponse L q body) = []) ∧
  Forall (λ f, equal_length_columns f = true ∧
               Forall (λ c, values_len (FValues c) = 2%nat) (Fields f))
    (Frames (parseQueryResponse L q body)).
Proof.
  unfold parseQueryResponse.
  destruct (json_Unmarshal L body) as [dtos|err]; simpl; split_and!.
  - split; [by eexists|done].
  - done.
  - repeat constructor.
  - split; [done|]. by intros [? ?].
  - done.
  - constructor.
Qed.

Lemma parseQueryResponse_lengths_witness :
  mismatched_lengths Stub.ragged_dto = true ∧
  Error (parseQueryResponse Stub.libs (Stub.q "A" "ragged") Stub.ragged_body)
    = None ∧
  Forall (λ f, equal_length_columns f = true ∧
               Forall (λ c, values_len (FValues c) = 2%nat) (Fields f))
    (Frames (parseQueryResponse Stub.libs (Stub.q "A" "ragged")
               Stub.ragged_body)).
Proof.
  destruct (parseQueryResponse_lengths Stub.libs (Stub.q "A" "ragged")
              Stub.ragged_body) as (Hok & _ & Hlen).
  split_and!; [vm_compute; reflexivity| |exact Hlen].
  apply Hok. exists Stub.ragged_dto. vm_compute. reflexivity.
Defined.

(** * Further properties of the plugin *)

(** ** The translator in general *)

(** X1. Whenever the translator returns a request, it is a POST to the
    instance's URL followed by /query whose only header is Content-Type with
    the single value application/json; its body is the marshalled payload
    built from the parsed query model, which is also kept in [queries]; the
    query type is the fixed text query. *)
Theorem createMetricRequest_success_shape (L : Libs) (q : DataQuery)
    (instance : dataSourceInstance) (r : RemoteDatasourceRequest) :
  createMetricRequest L q instance = Ok r →
  Method (req r) = "POST" ∧
  ReqURL (req r) = URL (settings instance) +:+ "/query" ∧
  Header (req r) = {[ "Content-Type" := ["application/json"] ]} ∧
  queryType r = "query" ∧
  simplejson_NewJson L (JSON q) = Ok (queries r) ∧
  json_Marshal L (createMetricPayload L q (queries r)) = Ok (ReqBody (req r)).
Proof.
  intros (j & body & Hj & Hbody & ->)%createMetricRequest_Ok. simpl.
  split_and!; done.
Qed.

Lemma createMetricRequest_success_shape_witness :
  let r := mkRemote "query" (Stub.request "table") (Stub.model_json "table") in
  Method (req r) = "POST" ∧
  ReqURL (req r) = "http://localhost:3333/query" ∧
  Header (req r) = {[ "Content-Type" := ["application/json"] ]} ∧
  queryType r = "query" ∧
  simplejson_NewJson Stub.libs (JSON (Stub.q "T" "table")) = Ok (queries r) ∧
  json_Marshal Stub.libs
    (createMetricPayload Stub.libs (Stub.q "T" "table") (queries r))
  = Ok (ReqBody (req r)).
Proof.
  intros r.
  apply (createMetricRequest_success_shape Stub.libs (Stub.q "T" "table")
           Stub.instance r).
  vm_compute. reflexivity.
Defined.

(** X2. The translator fails exactly with the error of the first library
    call that fails, in the order: parsing the query model, marshalling the
    payload, building the request for the URL. *)
Theorem createMetricRequest_failure (L : Libs) (q : DataQuery)
    (instance : dataSourceInstance) (e : error) :
  createMetricRequest L q instance = Fail e ↔
  simplejson_NewJson L (JSON q) = Fail e ∨
  ∃ j, simplejson_NewJson L (JSON q) = Ok j ∧
       (json_Marshal L (createMetricPayload L q j) = Fail e ∨
        ∃ body, json_Marshal L (createMetricPayload L q j) = Ok body ∧
                url_Parse_error L (URL (settings instance) +:+ "/query")
                = Some e).
Proof.
  unfold createMetricRequest, mbind, res_bind, http_NewRequest.
  destruct (simplejson_NewJson L (JSON q)) as [j|e1].
  2: { split; [intros [= <-]; by left|].
       intros [[= <-]|(j' & H & _)]; [done|discriminate]. }
  destruct (json_Marshal L (createMetricPayload L q j)) as [body|e2] eqn:Hm.
  2: { split.
       - intros [= <-]. right. exists j. split; [done|]. by left.
       - intros [H|(j' & [= <-] & [H|(b' & H & _)])]; congruence. }
  destruct (url_Parse_error L _) as [e3|]; split.
  - intros [= <-]. right. exists j. split; [done|]. right. exists body.
    by split.
  - intros [H|(j' & [= <-] & [H|(b' & _ & H)])]; congruence.
  - discriminate.
  - intros [H|(j' & [= <-] & [H|(b' & _ & H)])]; congruence.
Qed.

Lemma createMetricRequest_failure_witness :
  createMetricRequest Stub.libs
    (mkDataQuery "A" "not json" (mkTimeRange Stub.T0 Stub.T1)) Stub.instance
  = Fail "invalid character looking for beginning of value".
Proof.
  apply (createMetricRequest_failure Stub.libs
           (mkDataQuery "A" "not json" (mkTimeRange Stub.T0 Stub.T1))
           Stub.instance).
  left. vm_compute. reflexivity.
Defined.

(** X3. The payload of the translator is an object with exactly the two keys
    range and targets; range is an object with exactly the two keys from and
    to, both strings: from is the text of the query's [To], to the text of its
    [From]; targets is the parsed query model, whatever JSON value it is. *)
Theorem createMetricPayload_normal_form (L : Libs) (q : DataQuery) (j : json) :
  createMetricPayload L q j =
  JObject {[ "range" :=
               JObject {[ "from" := JString (Time_String L (To (QTimeRange q)));
                          "to" := JString (Time_String L (From (QTimeRange q))) ]};
             "targets" := j ]}.
Proof.
  rewrite createMetricPayload_eq. f_equal.
Qed.

(** ** The client in general *)

(** X4. The client returns a body exactly when the call yields a response
    with status code 200 whose body can be read, and then returns that body;
    a transport error and a read error of a 200 response are returned
    unchanged. *)
Theorem makeHttpRequest_outcomes (L : Libs) (ctx : Context)
    (r : RemoteDatasourceRequest) (log : list Request) :
  (∀ body,
     (makeHttpRequest L ctx r log).1 = Ok body ↔
     ∃ rsp, ctxhttp_Do L ctx (req r) = Ok rsp ∧ StatusCode rsp = StatusOK ∧
            Body rsp = Ok body) ∧
  (∀ e, ctxhttp_Do L ctx (req r) = Fail e →
        (makeHttpRequest L ctx r log).1 = Fail e) ∧
  (∀ rsp e, ctxhttp_Do L ctx (req r) = Ok rsp → StatusCode rsp = StatusOK →
            Body rsp = Fail e →
            (makeHttpRequest L ctx r log).1 = Fail e).
Proof.
  unfold makeHttpRequest, net_bind, Do, net_ret.
  destruct (ctxhttp_Do L ctx (req r)) as [rsp|e0]; simpl.
  - case_decide as Hst; simpl.
    + split_and!.
      * intros body. split; [done|]. intros (rsp' & [= <-] & Hok & _). done.
      * done.
      * intros rsp' e [= <-] Hok _. done.
    + destruct (Body rsp) as [b|e1] eqn:Hb; simpl.
      * split_and!.
        -- intros body. split.
           ++ intros [= <-]. by exists rsp.
           ++ intros (rsp' & [= <-] & _ & Hb'). congruence.
        -- done.
        -- intros rsp' e [= <-] _ Hb'. congruence.
      * split_and!.
        -- intros body. split; [done|].
           intros (rsp' & [= <-] & _ & Hb'). congruence.
        -- done.
        -- intros rsp' e [= <-] _ Hb'. congruence.
  - split_and!.
    + intros body. split; [done|]. intros (rsp' & [=] & _).
    + by intros e [= <-].
    + intros rsp' e [=].
Qed.

Lemma makeHttpRequest_outcomes_witness :
  (makeHttpRequest Stub.libs Stub.ctx
     (mkRemote "query" (Stub.request "table") (Stub.model_json "table")) []).1
  = Ok Stub.table_body.
Proof.
  destruct (makeHttpRequest_outcomes Stub.libs Stub.ctx
              (mkRemote "query" (Stub.request "table") (Stub.model_json "table"))
              []) as (Hbody & _ & _).
  apply Hbody. exists (mkResponse "200 OK" 200 (Ok Stub.table_body)).
  split_and!; vm_compute; reflexivity.
Defined.

(** ** The pipeline in general *)

Lemma query_wire (L : Libs) (ctx : Context) (q : DataQuery)
    (instance : dataSourceInstance) (w : list Request) :
  (query L ctx q instance w).2 = w ++ requests_of L instance q.
Proof.
  unfold query, requests_of, net_bind, net_ret.
  destruct (createMetricRequest L q instance) as [r|e]; simpl.
  - pose proof (makeHttpRequest_log L ctx r w) as Hlog.
    destruct (makeHttpRequest L ctx r w) as [[body|e] w1]; simpl in *;
      [by case_decide|done].
  - by rewrite app_nil_r.
Qed.

(** X5. A pipeline sends no request when the translation fails and otherwise
    exactly one, the translated request, whatever the client and the decoder
    make of the answer. *)
Theorem query_requests (L : Libs) (ctx : Context) (q : DataQuery)
    (instance : dataSourceInstance) (w : list Request) :
  (query L ctx q instance w).2
  = w ++ match createMetricRequest L q instance with
         | Ok r => [req r]
         | Fail _ => []
         end.
Proof. apply query_wire. Qed.

(** X6. The response of a pipeline carries an error exactly when the
    translator or the client failed, and it is that error; a failure of the
    decoder never shows in the [Error] of the response. *)
Theorem query_error (L : Libs) (ctx : Context) (q : DataQuery)
    (instance : dataSourceInstance) (e : error) :
  Error (queryResult L ctx q instance) = Some e ↔
  createMetricRequest L q instance = Fail e ∨
  ∃ r, createMetricRequest L q instance = Ok r ∧
       (makeHttpRequest L ctx r []).1 = Fail e.
Proof.
  unfold queryResult, query, net_bind, net_ret.
  destruct (createMetricRequest L q instance) as [r|e0]; simpl.
  - destruct (makeHttpRequest L ctx r []) as [[body|e1] w1] eqn:Hhttp; simpl.
    + split.
      * case_decide as Herr; simpl; intros H; [discriminate H|congruence].
      * intros [H|(r' & [= <-] & H)]; [discriminate|].
        rewrite Hhttp in H. discriminate.
    + split.
      * intros [= <-]. right. exists r. by rewrite Hhttp.
      * intros [H|(r' & [= <-] & H)]; [discriminate|].
        rewrite Hhttp in H. simpl in H. congruence.
  - split.
    + intros [= <-]. by left.
    + intros [H|(r' & H & _)]; congruence.
Qed.

Lemma query_error_witness :
  Error (queryResult Stub.libs Stub.ctx (Stub.q "B" "down") Stub.instance)
  = Some "invalid status code. status: 500 Internal Server Error".
Proof.
  apply (query_error Stub.libs Stub.ctx (Stub.q "B" "down") Stub.instance).
  right.
  exists (mkRemote "query" (Stub.request "down") (Stub.model_json "down")).
  split; vm_compute; reflexivity.
Defined.

(** X7. The response of a pipeline never carries frames together with an
    error; it is the two-point frame over the query's own time range exactly
    when translator and client succeed and the body unmarshals, and has no
    frames in every other case. *)
Theorem query_response_shape (L : Libs) (ctx : Context) (q : DataQuery)
    (instance : dataSourceInstance) :
  (Error (queryResult L ctx q instance) ≠ None →
   Frames (queryResult L ctx q instance) = []) ∧
  (queryResult L ctx q instance = placeholder q ↔
   ∃ r body dtos,
     createMetricRequest L q instance = Ok r ∧
     (makeHttpRequest L ctx r []).1 = Ok body ∧
     json_Unmarshal L body = Ok dtos) ∧
  (queryResult L ctx q instance ≠ placeholder q →
   Frames (queryResult L ctx q instance) = []).
Proof.
  unfold queryResult, query, net_bind, net_ret, placeholder.
  destruct (createMetricRequest L q instance) as [r|e0]; simpl.
  2: { split_and!; [done| |done].
       split; [done|]. intros (r' & ? & ? & [=] & _). }
  destruct (makeHttpRequest L ctx r []) as [[body|e1] w1] eqn:Hhttp; simpl.
  2: { split_and!; [done| |done].
       split; [done|]. intros (r' & ? & ? & [= <-] & H & _).
       rewrite Hhttp in H. discriminate. }
  unfold parseQueryResponse.
  destruct (json_Unmarshal L body) as [dtos|e2] eqn:Hun; simpl.
  - split_and!.
    + done.
    + split; [|done]. intros _. exists r, body, dtos. by rewrite Hhttp.
    + done.
  - split_and!.
    + done.
    + split; [done|]. intros (r' & b' & d' & [= <-] & H1 & H2).
      rewrite Hhttp in H1. simpl in H1. congruence.
    + done.
Qed.

Lemma query_response_shape_witness :
  queryResult Stub.libs Stub.ctx (Stub.q "T" "table") Stub.instance
  = placeholder (Stub.q "T" "table").
Proof.
  destruct (query_response_shape Stub.libs Stub.ctx (Stub.q "T" "table")
              Stub.instance) as (_ & Hok & _).
  apply Hok.
  exists (mkRemote "query" (Stub.request "table") (Stub.model_json "table")),
         Stub.table_body, Stub.table_dto.
  split_and!; vm_compute; reflexivity.
Defined.

(** ** The coordinator in general *)

Section wire.
Context (L : Libs) (ctx : Context) (instance : dataSourceInstance).
Context (w0 : list Request).

#[local] Abbreviation sent_in s :=
  (∃ l, wire s = w0 ++ l ∧ l ≡ₚ pool s ≫= sent_by L instance).

Lemma sent_middle (g1 g2 : list goroutine) (g : goroutine) :
  (g1 ++ g :: g2) ≫= sent_by L instance
  = (g1 ≫= sent_by L instance) ++ sent_by L instance g ++
    (g2 ≫= sent_by L instance).
Proof. by rewrite bind_app, bind_cons. Qed.

Lemma sent_step (s s' : qstate) :
  step L ctx instance s s' → sent_in s → sent_in s'.
Proof.
  intros Hstep (l & Hw & Hl). destruct Hstep; simpl in *.
  - exists l. split; [done|]. rewrite bind_app, Hl. simpl.
    by rewrite !app_nil_r.
  - exists (l ++ requests_of L instance q). split.
    + pose proof (query_wire L ctx q instance w) as Hq. rewrite H in Hq.
      simpl in Hq. by rewrite Hq, Hw, app_assoc.
    + rewrite sent_middle in *. unfold sent_by at 2 in Hl.
      unfold sent_by at 2. simpl in *. rewrite Hl.
      rewrite <- !app_assoc. apply Permutation_app_head, Permutation_app_comm.
  - exists l. split; [done|]. by rewrite sent_middle in *.
  - exists l. split; [done|]. by rewrite sent_middle in *.
  - exists l. split; [done|]. by rewrite sent_middle in *.
  - by exists l.
Qed.

Lemma sent_reachable (qs : list DataQuery) (s : qstate) :
  rtc (step L ctx instance) (spawn_state qs w0) s → sent_in s.
Proof.
  intros Hrun.
  apply (rtc_ind_r (R := step L ctx instance) (λ s, sent_in s)
           (spawn_state qs w0)); [| |exact Hrun].
  - exists []. by rewrite app_nil_r.
  - intros y z _ Hyz IH. by apply (sent_step y z).
Qed.

Lemma sent_all_exited (gs : list goroutine) :
  Forall (λ g, gat g = Exited (queryResult L ctx (gq g) instance)) gs →
  gs ≫= sent_by L instance = (gq <$> gs) ≫= requests_of L instance.
Proof.
  induction 1 as [|g gs Hg _ IH]; [done|].
  rewrite fmap_cons, !bind_cons, IH. unfold sent_by. by rewrite Hg.
Qed.

End wire.

(** X8. When QueryData returns a ResultSet, the requests sent during the call
    are, in some order, exactly the translated requests of the queries whose
    translation succeeded, one each; they follow the requests sent before the
    call, and there are at most as many as queries. *)
Theorem QueryData_requests (L : Libs) (ds : JsonDatasource) (ctx : Context)
    (rq : QueryDataRequest) (w w' : list Request)
    (m : gmap string DataResponse) :
  QueryData L ds ctx rq w (Return (Ok m)) w' →
  ∃ instance l,
    getInstance ds (ReqPluginContext rq) = Return (Ok instance) ∧
    w' = w ++ l ∧
    l ≡ₚ Queries rq ≫= requests_of L instance ∧
    (length l ≤ length (Queries rq))%nat.
Proof.
  inversion 1 as [| |instance s Hi Hrun Hmain]; subst.
  destruct (sent_reachable L ctx instance w (Queries rq) s Hrun)
    as (l & Hw & Hl).
  apply inv_reachable in Hrun.
  destruct (returned_all_exited L ctx instance (Queries rq) s Hrun Hmain)
    as [Hqs Hex].
  rewrite (sent_all_exited L ctx instance _ Hex), Hqs in Hl.
  exists instance, l. split_and!; [done..|].
  rewrite Hl. clear. induction (Queries rq) as [|q qs IH]; [done|].
  rewrite bind_cons, length_app. simpl. unfold requests_of at 1.
  destruct (createMetricRequest L q instance); simpl; lia.
Qed.

Lemma QueryData_requests_witness :
  ∃ instance l,
    getInstance Stub.ds Stub.plugin_context = Return (Ok instance) ∧
    sample_wire = [] ++ l ∧
    l ≡ₚ Queries sample_batch ≫= requests_of Stub.libs instance ∧
    (length l ≤ 3)%nat.
Proof.
  apply (QueryData_requests Stub.libs Stub.ds Stub.ctx sample_batch []
           sample_wire sample_responses).
  exact sample_batch_returns.
Defined.









(** X12. Two queries that share a RefID and have different results make the
    call's result depend on the schedule: the batch of the two has a run
    whose ResultSet holds the result of the first under the shared RefID and
    a run whose ResultSet holds the result of the second. *)
Theorem QueryData_shared_RefID_races (L : Libs) (ds : JsonDatasource)
    (ctx : Context) (pc : PluginContext) (instance : dataSourceInstance)
    (q1 q2 : DataQuery) (w : list Request) :
  getInstance ds pc = Return (Ok instance) →
  RefID q1 = RefID q2 →
  queryResult L ctx q1 instance ≠ queryResult L ctx q2 instance →
  ∃ m1 m2 w1 w2,
    QueryData L ds ctx (mkQueryDataRequest pc [q1; q2]) w (Return (Ok m1)) w1 ∧
    QueryData L ds ctx (mkQueryDataRequest pc [q1; q2]) w (Return (Ok m2)) w2 ∧
    m1 !! RefID q1 = Some (queryResult L ctx q1 instance) ∧
    m2 !! RefID q1 = Some (queryResult L ctx q2 instance) ∧
    m1 ≠ m2.
Proof.
  intros Hi Hid Hne.
  destruct (query L ctx q1 instance w) as [r1 wa] eqn:Hq1.
  destruct (query L ctx q2 instance wa) as [r2 wb] eqn:Hq2.
  assert (r1 = queryResult L ctx q1 instance) as Hr1.
  { rewrite <- (query_result L ctx q1 instance w). by rewrite Hq1. }
  assert (r2 = queryResult L ctx q2 instance) as Hr2.
  { rewrite <- (query_result L ctx q2 instance wa). by rewrite Hq2. }
  exists (<[RefID q1 := r1]> (<[RefID q2 := r2]> ∅)),
         (<[RefID q2 := r2]> (<[RefID q1 := r1]> ∅)), wb, wb.
  split_and!.
  - change (QueryData L ds ctx (mkQueryDataRequest pc [q1; q2]) w
              (Return (Ok (responses
                 (mkQ AtReturn [mkG q1 (Exited r1); mkG q2 (Exited r2)]
                    (<[RefID q1 := r1]> (<[RefID q2 := r2]> ∅)) 0 wb))))
              (wire
                 (mkQ AtReturn [mkG q1 (Exited r1); mkG q2 (Exited r2)]
                    (<[RefID q1 := r1]> (<[RefID q2 := r2]> ∅)) 0 wb))).
    apply (QueryData_returns L ds ctx _ w instance); [done| |done].
    unfold spawn_state. simpl.
    eapply rtc_l; [apply step_go|].
    eapply rtc_l; [apply step_go|]. simpl.
    eapply rtc_l; [apply (step_query _ _ _ _ [] q1 [mkG q2 AtQuery]), Hq1|].
    eapply rtc_l;
      [apply (step_query _ _ _ _ [mkG q1 (AtStore r1)] q2 []), Hq2|].
    eapply rtc_l; [apply (step_store _ _ _ _ [mkG q1 (AtStore r1)] q2 r2 [])|].
    eapply rtc_l; [apply (step_store _ _ _ _ [] q1 r1 [mkG q2 (AtDone r2)])|].
    eapply rtc_l; [apply (step_done _ _ _ _ [] q1 r1 [mkG q2 (AtDone r2)])|].
    eapply rtc_l; [apply (step_done _ _ _ _ [mkG q1 (Exited r1)] q2 r2 [])|].
    apply rtc_once, step_wait.
  - change (QueryData L ds ctx (mkQueryDataRequest pc [q1; q2]) w
              (Return (Ok (responses
                 (mkQ AtReturn [mkG q1 (Exited r1); mkG q2 (Exited r2)]
                    (<[RefID q2 := r2]> (<[RefID q1 := r1]> ∅)) 0 wb))))
              (wire
                 (mkQ AtReturn [mkG q1 (Exited r1); mkG q2 (Exited r2)]
                    (<[RefID q2 := r2]> (<[RefID q1 := r1]> ∅)) 0 wb))).
    apply (QueryData_returns L ds ctx _ w instance); [done| |done].
    unfold spawn_state. simpl.
    eapply rtc_l; [apply step_go|].
    eapply rtc_l; [apply step_go|]. simpl.
    eapply rtc_l; [apply (step_query _ _ _ _ [] q1 [mkG q2 AtQuery]), Hq1|].
    eapply rtc_l;
      [apply (step_query _ _ _ _ [mkG q1 (AtStore r1)] q2 []), Hq2|].
    eapply rtc_l; [apply (step_store _ _ _ _ [] q1 r1 [mkG q2 (AtStore r2)])|].
    eapply rtc_l; [apply (step_store _ _ _ _ [mkG q1 (AtDone r1)] q2 r2 [])|].
    eapply rtc_l; [apply (step_done _ _ _ _ [] q1 r1 [mkG q2 (AtDone r2)])|].
    eapply rtc_l; [apply (step_done _ _ _ _ [mkG q1 (Exited r1)] q2 r2 [])|].
    apply rtc_once, step_wait.
  - by rewrite lookup_insert_eq, Hr1.
  - by rewrite Hid, lookup_insert_eq, Hr2.
  - intros Heq. apply (f_equal (λ m, m !! RefID q1)) in Heq.
    rewrite lookup_insert_eq, Hid, lookup_insert_eq in Heq. congruence.
Qed.

Lemma QueryData_shared_RefID_races_witness :
  ∃ m1 m2 w1 w2,
    QueryData Stub.libs Stub.ds Stub.ctx twice_A [] (Return (Ok m1)) w1 ∧
    QueryData Stub.libs Stub.ds Stub.ctx twice_A [] (Return (Ok m2)) w2 ∧
    m1 !! "A" = Some (queryResult Stub.libs Stub.ctx (Stub.q "A" "upper_50")
                        Stub.instance) ∧
    m2 !! "A" = Some (queryResult Stub.libs Stub.ctx (Stub.q "A" "down")
                        Stub.instance) ∧
    m1 ≠ m2.
Proof.
  apply (QueryData_shared_RefID_races Stub.libs Stub.ds Stub.ctx
           Stub.plugin_context Stub.instance
           (Stub.q "A" "upper_50") (Stub.q "A" "down") []).
  - vm_compute. reflexivity.
  - reflexivity.
  - vm_compute. discriminate.
Defined.

(** X13. QueryData returns a top-level error exactly when the instance
    manager's lookup fails, and it is the lookup's error unchanged; nothing
    has been sent by then, whatever the queries and the libraries. *)
Theorem QueryData_error_is_lookup_error (L : Libs) (ds : JsonDatasource)
    (ctx : Context) (rq : QueryDataRequest) (w w' : list Request)
    (err : error) :
  QueryData L ds ctx rq w (Return (Fail err)) w' ↔
  Get (im ds) (ReqPluginContext rq) = Fail err ∧ w' = w.
Proof.
  rewrite QueryData_top_level_error. unfold getInstance.
  destruct (Get (im ds) (ReqPluginContext rq)) as [[| |]|e]; split;
    intros [H ->]; split; congruence.
Qed.

Lemma QueryData_error_is_lookup_error_witness :
  QueryData Stub.libs Stub.ds Stub.ctx
    (mkQueryDataRequest (mkPluginContext 1 None) [Stub.q "A" "upper_50"]) []
    (Return (Fail "data source instance settings cannot be nil")) [].
Proof.
  apply (QueryData_error_is_lookup_error Stub.libs Stub.ds Stub.ctx
           (mkQueryDataRequest (mkPluginContext 1 None) [Stub.q "A" "upper_50"])
           [] []).
  split; vm_compute; reflexivity.
Defined.

(** X14. When the instance manager hands out an instance built by the
    plugin's own factory [newJsonDatasourceInstance], CheckHealth reports OK
    with the message plugin is running, while every call of QueryData panics
    at the type assertion of [getInstance]: it returns nothing and sends
    nothing, whatever the queries. *)
Theorem CheckHealth_ok_QueryData_panics (L : Libs) (ds : JsonDatasource)
    (ctx : Context) (rq : QueryDataRequest) (w : list Request)
    (s : DataSourceInstanceSettings) :
  Get (im ds) (ReqPluginContext rq) = newJsonDatasourceInstance s →
  CheckHealth ds (mkCheckHealthRequest (ReqPluginContext rq))
  = (mkCheckHealthResult HealthStatusOk "plugin is running", None) ∧
  (∃ msg, QueryData L ds ctx rq w (Panic msg) w) ∧
  (∀ out w', QueryData L ds ctx rq w out w' →
             (∃ msg, out = Panic msg) ∧ w' = w).
Proof.
  intros Hget.
  assert (∃ msg, getInstance ds (ReqPluginContext rq) = Panic msg)
    as [msg Hpanic].
  { unfold getInstance. rewrite Hget. simpl. by eexists. }
  split_and!.
  - unfold CheckHealth. simpl. by rewrite Hget.
  - exists msg. by constructor.
  - intros out w' Hcall. inversion Hcall; subst; try congruence.
    split; [by eexists|done].
Qed.

Lemma CheckHealth_ok_QueryData_panics_witness :
  CheckHealth NewJsonDatasource (mkCheckHealthRequest Stub.plugin_context)
  = (mkCheckHealthResult HealthStatusOk "plugin is running", None) ∧
  (∃ msg, QueryData Stub.libs NewJsonDatasource Stub.ctx sample_batch []
            (Panic msg) []) ∧
  (∀ out w', QueryData Stub.libs NewJsonDatasource Stub.ctx sample_batch []
               out w' →
             (∃ msg, out = Panic msg) ∧ w' = []).
Proof.
  apply (CheckHealth_ok_QueryData_panics Stub.libs NewJsonDatasource Stub.ctx
           sample_batch [] Stub.ds_settings).
  reflexivity.
Defined.

(** X15. CheckHealth never returns an error itself and never leaves the
    status unknown; it reports the status Error, with a fixed message that
    does not include the lookup's error, exactly when QueryData for the same
    plugin context returns a top-level error. *)
Theorem CheckHealth_error_iff_top_level_error (L : Libs) (ds : JsonDatasource)
    (ctx : Context) (rq : QueryDataRequest) (w : list Request) :
  let h := CheckHealth ds (mkCheckHealthRequest (ReqPluginContext rq)) in
  h.2 = None ∧
  HStatus h.1 ≠ HealthStatusUnknown ∧
  (h.1 = mkCheckHealthResult HealthStatusError
           "Error getting datasource instance" ↔
   ∃ err, QueryData L ds ctx rq w (Return (Fail err)) w) ∧
  (h.1 = mkCheckHealthResult HealthStatusOk "plugin is running" ↔
   ¬ ∃ err, QueryData L ds ctx rq w (Return (Fail err)) w).
Proof.
  cbv zeta.
  assert ((∃ err, QueryData L ds ctx rq w (Return (Fail err)) w) ↔
          ∃ err, Get (im ds) (ReqPluginContext rq) = Fail err) as ->.
  { split; intros [err H]; exists err.
    - by apply QueryData_top_level_error in H as [H _]; revert H;
        unfold getInstance;
        destruct (Get (im ds) (ReqPluginContext rq)) as [[| |]|e];
        intros [=]; subst.
    - apply QueryData_top_level_error. split; [|done].
      unfold getInstance. by rewrite H. }
  unfold CheckHealth. simpl.
  destruct (Get (im ds) (ReqPluginContext rq)) as [i|e]; simpl; split_and!;
    try done.
  - split; [done|]. by intros [err [=]].
  - split; [|done]. by intros _ [err [=]].
  - split; [|done]. intros _. by exists e.
  - split; [done|]. intros H. destruct H. by exists e.
Qed.

Lemma CheckHealth_error_iff_top_level_error_witness :
  (CheckHealth Stub.ds (mkCheckHealthRequest (mkPluginContext 1 None))).1
  = mkCheckHealthResult HealthStatusError "Error getting datasource instance".
Proof.
  destruct (CheckHealth_error_iff_top_level_error Stub.libs Stub.ds Stub.ctx
              (mkQueryDataRequest (mkPluginContext 1 None) []) [])
    as (_ & _ & Herr & _).
  apply Herr. exists "data source instance settings cannot be nil".
  apply QueryData_no_instance. vm_compute. reflexivity.
Defined.
